(** * Adapter I/O protocol of the hft-tools Python adapters

    A shallow embedding of the four command-line adapters

    - [nautilus_adapter/backtest.py]  (backtest runner),
    - [nautilus_adapter/data.py]      (data fetcher),
    - [optuna_adapter/optimizer.py]   (optimizer),
    - [optuna_adapter/study.py]       (study continuation),

    together with the properties of their stdin/stdout contract.

    Every adapter has the same shape: [json.loads(sys.stdin.read())], a few
    [dict.get] calls, one domain function that builds a dictionary literal,
    [print(json.dumps(result))], all inside [try ... except Exception] whose
    handler prints an error envelope and calls [sys.exit(1)]. *)

From Stdlib Require Import ZArith List String Ascii Bool Lia.
From Stdlib Require Import PrimFloat DecimalString.
Import ListNotations.

Local Open Scope string_scope.
Local Open Scope Z_scope.

Set Implicit Arguments.
Set Warnings "-register-all,-inexact-float".

(** ** Python values

    The values the adapters handle are the ones [json.loads] builds and
    [json.dumps] accepts.  A [dict] keeps its insertion order, which is the
    order [json.dumps] prints, so it is an association list; the keys of a
    dictionary are unique, and a lookup takes the first binding of a key.
    A Python [float] is an IEEE 754 binary64 number, as [PrimFloat.float]. *)

Inductive pyval : Type :=
| PNone  : pyval
| PBool  : bool -> pyval
| PInt   : Z -> pyval
| PFloat : float -> pyval
| PStr   : string -> pyval
| PList  : list pyval -> pyval
| PDict  : list (string * pyval) -> pyval.

(** [type(v).__name__] *)
Definition type_name (v : pyval) : string :=
  match v with
  | PNone    => "NoneType"
  | PBool _  => "bool"
  | PInt _   => "int"
  | PFloat _ => "float"
  | PStr _   => "str"
  | PList _  => "list"
  | PDict _  => "dict"
  end.

(** [bool(v)], the test behind [v or default]. *)
Definition truthy (v : pyval) : bool :=
  match v with
  | PNone     => false
  | PBool b   => b
  | PInt z    => negb (z =? 0)
  | PFloat f  => negb (PrimFloat.eqb f 0%float)
  | PStr s    => negb (String.eqb s "")
  | PList l   => match l with [] => false | _ => true end
  | PDict kvs => match kvs with [] => false | _ => true end
  end.

(** [a or b] *)
Definition py_or (a b : pyval) : pyval := if truthy a then a else b.

(** [v == s] for a string literal [s]: only an equal [str] compares equal. *)
Definition eq_str (v : pyval) (s : string) : bool :=
  match v with
  | PStr t => String.eqb t s
  | _      => false
  end.

(** First binding of a key in a dictionary's items. *)
Fixpoint lookup (key : string) (kvs : list (string * pyval)) : option pyval :=
  match kvs with
  | []             => None
  | (k, v) :: rest => if String.eqb k key then Some v else lookup key rest
  end.

(** ** Exceptions and the process

    What a statement can raise: an instance of (a subclass of) [Exception],
    kept as its class name [type(e).__name__] and its text [str(e)], or the
    [SystemExit] that [sys.exit] raises, which [except Exception] does not
    catch. *)

Inductive raised : Type :=
| Exc        : string -> string -> raised
| SystemExit : Z -> raised.

(** A computation threads the lines written to standard output so far and
    ends in a value or in something raised.  A line is the document given to
    [json.dumps], which prints it without a line break. *)
Definition M (A : Type) : Type := list pyval -> (A + raised) * list pyval.

Definition ret {A} (a : A) : M A := fun out => (inl a, out).

Definition bind {A B} (m : M A) (k : A -> M B) : M B :=
  fun out =>
    match m out with
    | (inl a, out') => k a out'
    | (inr e, out') => (inr e, out')
    end.

Definition raise {A} (e : raised) : M A := fun out => (inr e, out).

Notation "x <- m ;; k" := (bind m (fun x => k))
  (at level 61, m at next level, right associativity).
Notation "m ;;; k" := (bind m (fun _ => k))
  (at level 61, right associativity).

(** [print(json.dumps(doc))].

    [json.dumps] recurses once for every list and dictionary it enters and
    raises [RecursionError] past the interpreter's limit, the limit that
    [json.loads] also has.  That limit is not part of this development:
    [print_json] always writes.  The backtest runner and the study adapter
    print request values no deeper than they arrived.  The data fetcher and
    the optimizer print some of them one level deeper (under [period],
    [summary], [statistics]), so what is stated below of a line they write
    is stated of a run that wrote it, or of a request whose echoed values
    are not nested. *)
Definition print_json (doc : pyval) : M unit := fun out => (inl tt, (out ++ [doc])%list).

(** [sys.exit(code)] *)
Definition sys_exit {A} (code : Z) : M A := raise (SystemExit code).

(** [try: body  except Exception as e: handler(e)] *)
Definition try_except {A} (body : M A) (handler : string -> string -> M A) : M A :=
  fun out =>
    match body out with
    | (inr (Exc ty msg), out') => handler ty msg out'
    | r                        => r
    end.

(** What the operating system sees of one run: the lines on standard output
    and the exit code.  A normal return exits with 0, [SystemExit(c)] with [c],
    an exception nobody caught with 1. *)
Record process : Type := Process { stdout : list pyval; exit_code : Z }.

Definition run (m : M unit) : process :=
  match m [] with
  | (inl _, out)              => Process out 0
  | (inr (SystemExit c), out) => Process out c
  | (inr (Exc _ _), out)      => Process out 1
  end.

(** ** Operations of the interpreter the adapters use *)

(** [obj.get(key, default)]: a [dict] method; no other JSON value has a
    [get] attribute. *)
Definition py_get (obj : pyval) (key : string) (default : pyval) : M pyval :=
  match obj with
  | PDict kvs =>
      ret (match lookup key kvs with Some v => v | None => default end)
  | _ =>
      raise (Exc "AttributeError"
                 ("'" ++ type_name obj ++ "' object has no attribute 'get'"))
  end.

(** [obj[key]] for a string literal [key]. *)
Definition py_getitem (obj : pyval) (key : string) : M pyval :=
  match obj with
  | PDict kvs =>
      match lookup key kvs with
      | Some v => ret v
      | None   => raise (Exc "KeyError" ("'" ++ key ++ "'"))
      end
  | PList _ =>
      raise (Exc "TypeError" "list indices must be integers or slices, not str")
  | PStr _ =>
      raise (Exc "TypeError" "string indices must be integers, not 'str'")
  | _ =>
      raise (Exc "TypeError" ("'" ++ type_name obj ++ "' object is not subscriptable"))
  end.

(** The outcome of [json.loads(sys.stdin.read())]: the parsed document, or
    the exception raised ([JSONDecodeError] for a text that is not valid
    JSON). *)
Definition stdin_json : Type := pyval + (string * string).

Definition json_loads_stdin (input : stdin_json) : M pyval :=
  match input with
  | inl doc       => ret doc
  | inr (ty, msg) => raise (Exc ty msg)
  end.

(** The handler every adapter shares. *)
Definition error_result (ty msg : string) : pyval :=
  PDict [("status", PStr "error"); ("error", PStr msg); ("type", PStr ty)].

Definition report_error (ty msg : string) : M unit :=
  print_json (error_result ty msg) ;;; sys_exit 1.

(** ** nautilus_adapter/backtest.py *)
Module Backtest.

(** The result is one dictionary literal, whose values Python evaluates from
    first to last: the two [.get] calls of [strategy_name], then the two
    subscripts of [period], and at the end the two of [trade_log_summary].
    The first of them to raise decides the exception.  [config] is not read. *)
Definition run_backtest (strategy data_config config : pyval) : M pyval :=
  metadata   <- py_get strategy "metadata" (PDict []) ;;
  name       <- py_get metadata "name" (PStr "unknown") ;;
  start      <- py_getitem data_config "startDate" ;;
  end_       <- py_getitem data_config "endDate" ;;
  first_     <- py_getitem data_config "startDate" ;;
  last_      <- py_getitem data_config "endDate" ;;
  ret (PDict
    [ ("status", PStr "success");
      ("strategy_name", name);
      ("period", PDict [("start", start); ("end", end_)]);
      ("performance", PDict
         [ ("total_return", PFloat 0.15);
           ("sharpe_ratio", PFloat 1.8);
           ("sortino_ratio", PFloat 2.1);
           ("max_drawdown", PFloat 0.05);
           ("profit_factor", PFloat 2.3);
           ("win_rate", PFloat 0.62);
           ("total_trades", PInt 245);
           ("winning_trades", PInt 152);
           ("losing_trades", PInt 93);
           ("average_win", PFloat 150.50);
           ("average_loss", PFloat (-85.30));
           ("largest_win", PFloat 580.00);
           ("largest_loss", PFloat (-320.00)) ]);
      ("metrics_by_period", PDict
         [ ("daily", PDict [("avg_return", PFloat 0.0012); ("volatility", PFloat 0.015)]);
           ("weekly", PDict [("avg_return", PFloat 0.0084); ("volatility", PFloat 0.042)]) ]);
      ("risk_metrics", PDict
         [ ("var_95", PFloat 0.025);
           ("cvar_95", PFloat 0.032);
           ("max_consecutive_losses", PInt 5);
           ("max_consecutive_wins", PInt 8) ]);
      ("execution_stats", PDict
         [ ("avg_slippage", PFloat 0.00015);
           ("total_commission", PFloat 245.50) ]);
      ("warnings", PList
         [ PStr "Backtest uses simulated data - results may not reflect live performance" ]);
      ("trade_log_summary", PDict
         [ ("first_trade", first_);
           ("last_trade", last_);
           ("avg_holding_time_seconds", PInt 25) ]) ]).

Definition body (input : stdin_json) : M unit :=
  input_data  <- json_loads_stdin input ;;
  strategy    <- py_get input_data "strategy" (PDict []) ;;
  data_config <- py_get input_data "dataConfig" (PDict []) ;;
  config      <- py_get input_data "config" (PDict []) ;;
  result      <- run_backtest strategy data_config config ;;
  print_json result.

Definition main (input : stdin_json) : M unit :=
  try_except (body input) report_error.

End Backtest.

(** ** nautilus_adapter/data.py *)
Module Data.

(** [fetch_data] reads nothing but its arguments and writes no file: the
    output path is only echoed. *)
Definition fetch_data
    (source instrument data_type start_date end_date output_path : pyval) : pyval :=
  PDict
    [ ("status", PStr "success");
      ("source", source);
      ("instrument", instrument);
      ("data_type", data_type);
      ("period", PDict [("start", start_date); ("end", end_date)]);
      ("records_count", PInt 1500000);
      ("file_size_mb", PFloat 250.5);
      ("output_path", py_or output_path (PStr "memory"));
      ("data_quality", PDict
         [ ("missing_data_points", PInt 0);
           ("gaps", PList []);
           ("anomalies", PInt 0) ]);
      ("summary", PDict
         [ ("first_timestamp", start_date);
           ("last_timestamp", end_date);
           ("coverage", PStr "100%") ]) ].

Definition body (input : stdin_json) : M unit :=
  input_data  <- json_loads_stdin input ;;
  source      <- py_get input_data "source" PNone ;;
  instrument  <- py_get input_data "instrument" PNone ;;
  data_type   <- py_get input_data "dataType" PNone ;;
  start_date  <- py_get input_data "startDate" PNone ;;
  end_date    <- py_get input_data "endDate" PNone ;;
  output_path <- py_get input_data "outputPath" PNone ;;
  print_json (fetch_data source instrument data_type start_date end_date output_path).

Definition main (input : stdin_json) : M unit :=
  try_except (body input) report_error.

End Data.

(** ** optuna_adapter/optimizer.py

    [create_objective_function] is defined in the file and never called; the
    adapter's behaviour is [optimize] and [main]. *)
Module Optimizer.

(** The history, the best value and the importances are literals; the trial
    count of the request goes to [n_trials], [total_trials] and
    [complete_trials]. *)
Definition optimize
    (strategy search_space n_trials study_name sampler pruner backtest_config : pyval)
    : pyval :=
  PDict
    [ ("status", PStr "success");
      ("study_name", py_or study_name (PStr "unnamed_study"));
      ("n_trials", n_trials);
      ("sampler", sampler);
      ("pruner", pruner);
      ("best_params", PDict
         [ ("signals.ofi_signal.params.windowSize", PInt 15);
           ("signals.ofi_signal.params.threshold", PFloat 0.35);
           ("exit.stopLoss.value", PFloat 0.0012);
           ("exit.takeProfit.value", PFloat 0.0025) ]);
      ("best_value", PFloat 2.15);
      ("optimization_history", PList
         [ PDict [ ("trial", PInt 0); ("value", PFloat 1.2);
                   ("params", PDict [("windowSize", PInt 10); ("threshold", PFloat 0.3)]) ];
           PDict [ ("trial", PInt 1); ("value", PFloat 1.5);
                   ("params", PDict [("windowSize", PInt 12); ("threshold", PFloat 0.32)]) ];
           PDict [ ("trial", PInt 2); ("value", PFloat 1.8);
                   ("params", PDict [("windowSize", PInt 15); ("threshold", PFloat 0.35)]) ];
           PDict [ ("trial", PInt 3); ("value", PFloat 2.15);
                   ("params", PDict [("windowSize", PInt 15); ("threshold", PFloat 0.35)]) ] ]);
      ("param_importances", PDict
         [ ("signals.ofi_signal.params.threshold", PFloat 0.45);
           ("exit.takeProfit.value", PFloat 0.30);
           ("signals.ofi_signal.params.windowSize", PFloat 0.15);
           ("exit.stopLoss.value", PFloat 0.10) ]);
      ("statistics", PDict
         [ ("total_trials", n_trials);
           ("complete_trials", n_trials);
           ("pruned_trials", PInt 0);
           ("best_trial_number", PInt 3) ]) ].

Definition body (input : stdin_json) : M unit :=
  input_data      <- json_loads_stdin input ;;
  strategy        <- py_get input_data "strategy" (PDict []) ;;
  search_space    <- py_get input_data "searchSpace" (PDict []) ;;
  n_trials        <- py_get input_data "nTrials" (PInt 100) ;;
  study_name      <- py_get input_data "studyName" PNone ;;
  sampler         <- py_get input_data "sampler" (PStr "TPE") ;;
  pruner          <- py_get input_data "pruner" (PStr "Hyperband") ;;
  backtest_config <- py_get input_data "backtestConfig" (PDict []) ;;
  print_json
    (optimize strategy search_space n_trials study_name sampler pruner backtest_config).

Definition main (input : stdin_json) : M unit :=
  try_except (body input) report_error.

End Optimizer.

(** ** Text of a value inside an f-string

    A replacement field [{v}] of an f-string holds [str(v)].  For [None], the
    booleans, the integers and the strings that text is written out here.  The
    text of a [float] (its shortest round-trip decimal) and of a [list] or
    [dict] (the [repr] of its members, with Python's quoting of strings) is the
    interpreter's; it is taken as given. *)
Class Repr : Type :=
  { repr_float     : float -> string;
    repr_container : pyval -> string }.

Definition py_str {R : Repr} (v : pyval) : string :=
  match v with
  | PNone       => "None"
  | PBool true  => "True"
  | PBool false => "False"
  | PInt z      => NilZero.string_of_int (Z.to_int z)
  | PFloat f    => repr_float f
  | PStr s      => s
  | PList _     => repr_container v
  | PDict _     => repr_container v
  end.

(** ** optuna_adapter/study.py *)
Module Study.
Section WithRepr.
Context {R : Repr}.

(** The message is the f-string
    [f"Added {n_trials} trials to study '{study_name}'"]. *)
Definition continue_study (study_name n_trials : pyval) : pyval :=
  PDict
    [ ("status", PStr "success");
      ("study_name", study_name);
      ("trials_added", n_trials);
      ("total_trials", PInt 150);
      ("best_value", PFloat 2.25);
      ("improved", PBool true);
      ("message",
         PStr ("Added " ++ py_str n_trials ++ " trials to study '"
                        ++ py_str study_name ++ "'")) ].

(** The [else] branch builds its own error document and falls through to the
    [print] of the [try] block; it does not call [sys.exit]. *)
Definition body (input : stdin_json) : M unit :=
  input_data <- json_loads_stdin input ;;
  action     <- py_get input_data "action" (PStr "continue") ;;
  study_name <- py_get input_data "studyName" PNone ;;
  n_trials   <- py_get input_data "nTrials" (PInt 50) ;;
  result     <- ret (if eq_str action "continue"
                     then continue_study study_name n_trials
                     else PDict [ ("status", PStr "error");
                                  ("error", PStr ("Unknown action: " ++ py_str action)) ]) ;;
  print_json result.

Definition main (input : stdin_json) : M unit :=
  try_except (body input) report_error.

End WithRepr.
End Study.

(** ** The four adapters as one family *)

Inductive adapter : Type :=
| BacktestRunner
| DataFetcher
| OptimizerAdapter
| StudyContinuation.

Definition adapter_body {R : Repr} (a : adapter) : stdin_json -> M unit :=
  match a with
  | BacktestRunner    => Backtest.body
  | DataFetcher       => Data.body
  | OptimizerAdapter  => Optimizer.body
  | StudyContinuation => Study.body
  end.

Definition adapter_main {R : Repr} (a : adapter) : stdin_json -> M unit :=
  match a with
  | BacktestRunner    => Backtest.main
  | DataFetcher       => Data.main
  | OptimizerAdapter  => Optimizer.main
  | StudyContinuation => Study.main
  end.

(** ** Reading a result document *)

(** [doc[k]] when [doc] is a dictionary that has the key. *)
Definition field (k : string) (doc : pyval) : option pyval :=
  match doc with
  | PDict kvs => lookup k kvs
  | _         => None
  end.

Definition has_key (k : string) (doc : pyval) : bool :=
  match field k doc with Some _ => true | None => false end.

(** [doc[k1][k2]] *)
Definition field2 (k1 k2 : string) (doc : pyval) : option pyval :=
  match field k1 doc with
  | Some inner => field k2 inner
  | None       => None
  end.

(** The value [obj.get(key, default)] evaluates to on a dictionary. *)
Definition get_or (kvs : list (string * pyval)) (key : string) (default : pyval) : pyval :=
  match lookup key kvs with Some v => v | None => default end.

(** A run that wrote the single line [r], a document with
    [status == "success"], and exited with 0. *)
Definition succeeds_with (p : process) (r : pyval) : Prop :=
  p = Process [r] 0 /\ field "status" r = Some (PStr "success").

Definition succeeds (p : process) : Prop := exists r, succeeds_with p r.

(** Whether [doc[k1][k2]] exists. *)
Definition has_key2 (k1 k2 : string) (doc : pyval) : bool :=
  match field2 k1 k2 doc with Some _ => true | None => false end.

(** ** Reading the optimizer's result *)

(** [len(doc[k])] for a list. *)
Definition field_length (k : string) (doc : pyval) : option nat :=
  match field k doc with
  | Some (PList items) => Some (List.length items)
  | _ => None
  end.

(** [[entry["value"] for entry in doc["optimization_history"]]], when every
    value is a float. *)
Fixpoint entry_values (entries : list pyval) : option (list float) :=
  match entries with
  | [] => Some []
  | entry :: rest =>
      match field "value" entry, entry_values rest with
      | Some (PFloat v), Some vs => Some (v :: vs)
      | _, _ => None
      end
  end.

Definition history_values (doc : pyval) : option (list float) :=
  match field "optimization_history" doc with
  | Some (PList entries) => entry_values entries
  | _ => None
  end.

(** [max(xs)]: the running maximum is replaced by an item only when the item
    is greater; there is no maximum of an empty sequence. *)
Fixpoint max_from (best : float) (xs : list float) : float :=
  match xs with
  | [] => best
  | x :: rest => max_from (if PrimFloat.ltb best x then x else best) rest
  end.

Definition py_max (xs : list float) : option float :=
  match xs with
  | [] => None
  | x :: rest => Some (max_from x rest)
  end.

(** ** Required fields *)

(** The required input fields of each adapter, as the table of the data
    model lists them. *)
Definition required_fields (a : adapter) (doc : pyval) : bool :=
  match a with
  | BacktestRunner =>
      has_key "strategy" doc && has_key "dataConfig" doc
      && has_key2 "dataConfig" "startDate" doc && has_key2 "dataConfig" "endDate" doc
  | DataFetcher =>
      has_key "source" doc && has_key "instrument" doc && has_key "dataType" doc
      && has_key "startDate" doc && has_key "endDate" doc
  | OptimizerAdapter =>
      has_key "strategy" doc && has_key "searchSpace" doc
  | StudyContinuation =>
      has_key "action" doc && has_key "studyName" doc
  end.

(** A list or a dictionary. *)
Definition is_container (v : pyval) : bool :=
  match v with
  | PList _ | PDict _ => true
  | _ => false
  end.

(** Whether none of the fields [keys] of a request holds a list or a
    dictionary; a missing field holds nothing. *)
Definition fields_flat (keys : list string) (doc : pyval) : bool :=
  match doc with
  | PDict kvs =>
      forallb (fun key => negb (is_container (get_or kvs key PNone))) keys
  | _ => false
  end.

(** What the code needs beyond the presence of the fields: the backtest
    runner calls [.get] on the strategy and on its metadata, so both have to
    be objects; the study adapter only continues; the data fetcher and the
    optimizer print the fields they echo one level deeper than they arrived,
    so these are taken not to be nested. *)
Definition fields_usable (a : adapter) (doc : pyval) : bool :=
  match a with
  | BacktestRunner =>
      match field "strategy" doc with
      | Some (PDict skvs) =>
          match lookup "metadata" skvs with
          | None | Some (PDict _) => true
          | Some _ => false
          end
      | _ => false
      end
  | StudyContinuation =>
      match field "action" doc with
      | Some action => eq_str action "continue"
      | None => false
      end
  | DataFetcher =>
      fields_flat [ "source"; "instrument"; "dataType"; "startDate";
                    "endDate"; "outputPath" ] doc
  | OptimizerAdapter =>
      fields_flat [ "nTrials"; "studyName"; "sampler"; "pruner" ] doc
  end.

(** ** Requests of the examples *)

(** A stand-in for the interpreter's texts, for the closed examples: none of
    them puts a float, a list or a dictionary inside an f-string. *)
Definition example_repr : Repr :=
  {| repr_float := fun _ => "<float>"; repr_container := fun v => "<" ++ type_name v ++ ">" |}.

(** What [json.loads] returns for the text [{"source": NaN}].  The text is
    not valid JSON: the grammar of JSON has no [NaN], [Infinity] or
    [-Infinity].  [json.loads] accepts the three and reads them as floats. *)
Definition nan_source_request : pyval :=
  PDict [ ("source", PFloat nan) ].

(** The request of the end-to-end example:
    [{"dataConfig": {"startDate": "2024-01-01", "endDate": "2024-01-31"},
      "strategy": {"metadata": {"name": "momentum"}}}]. *)
Definition momentum_request : pyval :=
  PDict
    [ ("dataConfig", PDict [ ("startDate", PStr "2024-01-01");
                             ("endDate", PStr "2024-01-31") ]);
      ("strategy", PDict [ ("metadata", PDict [ ("name", PStr "momentum") ]) ]) ].

(** The document the example request produces. *)
Definition momentum_result : pyval :=
  Eval vm_compute in
    hd PNone (stdout (run (Backtest.main (inl momentum_request)))).

(** A request to the study adapter with both required fields and an action
    other than ["continue"]. *)
Definition stop_request : pyval :=
  PDict [ ("action", PStr "stop"); ("studyName", PStr "momentum_study") ].

(** A request to the backtest runner with all required fields, whose
    strategy is a name instead of an object. *)
Definition named_strategy_request : pyval :=
  PDict
    [ ("strategy", PStr "momentum");
      ("dataConfig", PDict [ ("startDate", PStr "2024-01-01");
                             ("endDate", PStr "2024-01-31") ]) ].

(** Whether no name can be read along [strategy.metadata.name]: the request
    has no [strategy], or its strategy holds no [metadata], or the metadata
    holds no [name]. *)
Definition strategy_name_missing (doc : pyval) : bool :=
  match field "strategy" doc with
  | None => true
  | Some strategy =>
      match field "metadata" strategy with
      | None => true
      | Some metadata =>
          match field "name" metadata with
          | None => true
          | Some _ => false
          end
      end
  end.

(** A request to the backtest runner with both dates, whose strategy has
    [null] for its metadata:
    [{"strategy": {"metadata": null},
      "dataConfig": {"startDate": "2024-01-01", "endDate": "2024-01-31"}}]. *)
Definition null_metadata_request : pyval :=
  PDict
    [ ("strategy", PDict [ ("metadata", PNone) ]);
      ("dataConfig", PDict [ ("startDate", PStr "2024-01-01");
                             ("endDate", PStr "2024-01-31") ]) ].

(** A request to the data fetcher with all required fields. *)
Definition trades_request : pyval :=
  PDict [ ("source", PStr "binance"); ("instrument", PStr "BTCUSDT");
          ("dataType", PStr "trades"); ("startDate", PStr "2024-01-01");
          ("endDate", PStr "2024-01-31") ].

(** The document that request produces. *)
Definition trades_result : pyval :=
  Eval vm_compute in
    hd PNone (stdout (run (Data.main (inl trades_request)))).

(** A request to the optimizer with both required fields and none of the
    optional ones. *)
Definition plain_optimizer_request : pyval :=
  PDict [ ("strategy", PDict []); ("searchSpace", PDict []) ].

(** The document that request produces. *)
Definition plain_optimizer_result : pyval :=
  Eval vm_compute in
    hd PNone (stdout (run (Optimizer.main (inl plain_optimizer_request)))).

(** ** Usable requests *)

(** Whether a parsed document is a JSON object. *)
Definition is_dict (v : pyval) : bool :=
  match v with PDict _ => true | _ => false end.

(** The requests on which no statement of the backtest runner raises: an
    object whose [strategy] (or [{}] without one) is an object, whose
    [metadata] (or [{}]) is an object, and whose [dataConfig] is an object
    with [startDate] and [endDate]. *)
Definition backtest_usable (doc : pyval) : bool :=
  match doc with
  | PDict kvs =>
      match get_or kvs "strategy" (PDict []) with
      | PDict skvs =>
          match get_or skvs "metadata" (PDict []) with
          | PDict _ =>
              match get_or kvs "dataConfig" (PDict []) with
              | PDict dkvs =>
                  match lookup "startDate" dkvs, lookup "endDate" dkvs with
                  | Some _, Some _ => true
                  | _, _ => false
                  end
              | _ => false
              end
          | _ => false
          end
      | _ => false
      end
  | _ => false
  end.

(** [[entry["trial"] for entry in entries]], a missing number left as [None]. *)
Definition entry_trials (entries : list pyval) : list (option pyval) :=
  map (field "trial") entries.

(** [[0, 1, ..., n - 1]] as trial numbers. *)
Definition trial_numbers (n : nat) : list (option pyval) :=
  map (fun i => Some (PInt (Z.of_nat i))) (seq 0 n).

(** ** Shape of a computation

    The statements before the final [print] neither write nor exit: each one
    yields a value or raises an [Exception], and leaves standard output as it
    found it. *)

Definition quiet {A} (m : M A) : Prop :=
  (exists a, forall out, m out = (inl a, out)) \/
  (exists ty msg, forall out, m out = (inr (Exc ty msg), out)).

(** A body as a whole: it prints exactly one line and returns, or it raises
    an [Exception] having printed nothing. *)
Definition prints_or_raises (m : M unit) : Prop :=
  (exists r, forall out, m out = (inl tt, (out ++ [r])%list)) \/
  (exists ty msg, forall out, m out = (inr (Exc ty msg), out)).

(** * Properties *)

Lemma quiet_ret {A} (a : A) : quiet (ret a).
Proof. left; exists a; reflexivity. Qed.

Lemma quiet_raise_exc {A} ty msg : quiet (@raise A (Exc ty msg)).
Proof. right; exists ty, msg; reflexivity. Qed.

Lemma quiet_bind {A B} (m : M A) (k : A -> M B) :
  quiet m -> (forall a, quiet (k a)) -> quiet (bind m k).
Proof.
  intros [[a Ha] | [ty [msg He]]] Hk.
  - destruct (Hk a) as [[b Hb] | [ty [msg Hb]]].
    + left; exists b; intro out; unfold bind; now rewrite Ha, Hb.
    + right; exists ty, msg; intro out; unfold bind; now rewrite Ha, Hb.
  - right; exists ty, msg; intro out; unfold bind; now rewrite He.
Qed.

Lemma quiet_py_get obj key default : quiet (py_get obj key default).
Proof. destruct obj; simpl; auto using quiet_ret, quiet_raise_exc. Qed.

Lemma quiet_py_getitem obj key : quiet (py_getitem obj key).
Proof.
  destruct obj; simpl; auto using quiet_raise_exc.
  destruct (lookup key l); auto using quiet_ret, quiet_raise_exc.
Qed.

Lemma quiet_json_loads_stdin input : quiet (json_loads_stdin input).
Proof. destruct input as [doc | [ty msg]]; simpl; auto using quiet_ret, quiet_raise_exc. Qed.

Lemma prints_print_json r : prints_or_raises (print_json r).
Proof. left; exists r; reflexivity. Qed.

Lemma prints_bind {A} (m : M A) (k : A -> M unit) :
  quiet m -> (forall a, prints_or_raises (k a)) -> prints_or_raises (bind m k).
Proof.
  intros [[a Ha] | [ty [msg He]]] Hk.
  - destruct (Hk a) as [[r Hr] | [ty [msg Hr]]].
    + left; exists r; intro out; unfold bind; now rewrite Ha, Hr.
    + right; exists ty, msg; intro out; unfold bind; now rewrite Ha, Hr.
  - right; exists ty, msg; intro out; unfold bind; now rewrite He.
Qed.

Create HintDb adapters.

#[local] Hint Resolve quiet_ret quiet_raise_exc quiet_py_get quiet_py_getitem
  quiet_json_loads_stdin prints_print_json : adapters.

Ltac shape :=
  repeat first
    [ apply prints_print_json
    | apply prints_bind; [ | intro ]
    | apply quiet_bind; [ | intro ]
    | solve [ auto with adapters ] ].

Lemma quiet_run_backtest strategy data_config config :
  quiet (Backtest.run_backtest strategy data_config config).
Proof. unfold Backtest.run_backtest; shape. Qed.

#[local] Hint Resolve quiet_run_backtest : adapters.

Lemma adapter_body_shape {R : Repr} (a : adapter) (input : stdin_json) :
  prints_or_raises (adapter_body a input).
Proof.
  destruct a; simpl;
    [ unfold Backtest.body | unfold Data.body
    | unfold Optimizer.body | unfold Study.body ]; shape.
Qed.

Lemma adapter_main_unfold {R : Repr} (a : adapter) (input : stdin_json) :
  adapter_main a input = try_except (adapter_body a input) report_error.
Proof. destruct a; reflexivity. Qed.

(** What [main] does with each shape of its body. *)
Lemma run_main_printed {R : Repr} a input r :
  (forall out, adapter_body a input out = (inl tt, (out ++ [r])%list)) ->
  run (adapter_main a input) = Process [r] 0.
Proof.
  intro H. rewrite adapter_main_unfold. unfold run, try_except.
  rewrite H. reflexivity.
Qed.

Lemma run_main_raised {R : Repr} a input ty msg :
  (forall out, adapter_body a input out = (inr (Exc ty msg), out)) ->
  run (adapter_main a input) = Process [error_result ty msg] 1.
Proof.
  intro H. rewrite adapter_main_unfold. unfold run, try_except.
  rewrite H. reflexivity.
Qed.

(** One run of an adapter ends in one of two ways. *)
Lemma run_main_cases {R : Repr} a input :
  (exists r, run (adapter_main a input) = Process [r] 0) \/
  (exists ty msg, run (adapter_main a input) = Process [error_result ty msg] 1).
Proof.
  destruct (adapter_body_shape a input) as [[r Hr] | [ty [msg He]]].
  - left. exists r. now apply run_main_printed.
  - right. exists ty, msg. now apply run_main_raised.
Qed.

(** ** The error envelope *)

(** C1, as stated, fails: the text [{"source": NaN}] is not valid JSON, yet
    [json.loads] returns a document for it, and the data fetcher answers
    with [status == "success"] and exit code 0. *)
Lemma C1_counterexample :
  succeeds (run (adapter_main (R := example_repr) DataFetcher
                   (inl nan_source_request))) /\
  exit_code (run (adapter_main (R := example_repr) DataFetcher
                    (inl nan_source_request))) = 0 /\
  (exists r,
      stdout (run (adapter_main (R := example_repr) DataFetcher
                     (inl nan_source_request))) = [r] /\
      field "source" r = Some (PFloat nan) /\
      field "type" r = None).
Proof.
  split; [ | split].
  - eexists. split; reflexivity.
  - reflexivity.
  - eexists. repeat split.
Qed.

(** C1, amended. For every adapter: when [json.loads] raises on the text of
    standard input, and more generally whenever a statement of the [try]
    block raises an exception [e], standard output holds exactly one line,
    the object [{"status": "error", "error": str(e), "type":
    type(e).__name__}] with these three fields and no other, and the process
    exits with code 1.  No run exits with code 1 in another way. *)
Theorem C1_error_envelope {R : Repr} (a : adapter) :
  (forall ty msg,
      run (adapter_main a (inr (ty, msg)))
      = Process [ PDict [ ("status", PStr "error"); ("error", PStr msg);
                          ("type", PStr ty) ] ] 1) /\
  (forall input ty msg out,
      adapter_body a input [] = (inr (Exc ty msg), out) ->
      run (adapter_main a input)
      = Process [ PDict [ ("status", PStr "error"); ("error", PStr msg);
                          ("type", PStr ty) ] ] 1) /\
  (forall input,
      exit_code (run (adapter_main a input)) = 1 ->
      exists ty msg,
        run (adapter_main a input)
        = Process [ PDict [ ("status", PStr "error"); ("error", PStr msg);
                            ("type", PStr ty) ] ] 1).
Proof.
  split; [ | split].
  - intros ty msg. destruct a; reflexivity.
  - intros input ty msg out H.
    destruct (adapter_body_shape a input) as [[r Hr] | [ty' [msg' He]]].
    + rewrite Hr in H. discriminate.
    + rewrite He in H. injection H as -> -> _.
      now apply run_main_raised.
  - intros input H.
    destruct (run_main_cases a input) as [[r Hr] | Hraised]; [ | assumption].
    rewrite Hr in H. discriminate.
Qed.

(** The study adapter given an empty standard input: [json.loads] raises
    [JSONDecodeError]. *)
Lemma C1_error_envelope_witness :
  adapter_body (R := example_repr) StudyContinuation
    (inr ("JSONDecodeError", "Expecting value: line 1 column 1 (char 0)")) []
    = (inr (Exc "JSONDecodeError" "Expecting value: line 1 column 1 (char 0)"), []) /\
  run (adapter_main (R := example_repr) StudyContinuation
         (inr ("JSONDecodeError", "Expecting value: line 1 column 1 (char 0)")))
    = Process [ PDict [ ("status", PStr "error");
                        ("error", PStr "Expecting value: line 1 column 1 (char 0)");
                        ("type", PStr "JSONDecodeError") ] ] 1.
Proof.
  split.
  - reflexivity.
  - apply (proj1 (proj2 (C1_error_envelope (R := example_repr) StudyContinuation))
             (inr ("JSONDecodeError", "Expecting value: line 1 column 1 (char 0)"))
             "JSONDecodeError" "Expecting value: line 1 column 1 (char 0)" []).
    reflexivity.
Defined.

(** ** The backtest runner on a JSON object *)

(** Unfolds one run of a [main] down to the dictionary operations. *)
Tactic Notation "run_main" :=
  unfold run, Backtest.main, Data.main, Optimizer.main, Study.main,
    try_except, Backtest.body, Data.body, Optimizer.body, Study.body,
    Backtest.run_backtest, report_error, sys_exit, print_json, bind,
    json_loads_stdin, py_get, py_getitem, ret, raise.

Tactic Notation "run_main" "in" hyp(H) :=
  unfold run, Backtest.main, Data.main, Optimizer.main, Study.main,
    try_except, Backtest.body, Data.body, Optimizer.body, Study.body,
    Backtest.run_backtest, report_error, sys_exit, print_json, bind,
    json_loads_stdin, py_get, py_getitem, ret, raise in H.

Lemma backtest_run_dict kvs skvs mkvs dkvs s e :
  get_or kvs "strategy" (PDict []) = PDict skvs ->
  get_or skvs "metadata" (PDict []) = PDict mkvs ->
  get_or kvs "dataConfig" (PDict []) = PDict dkvs ->
  lookup "startDate" dkvs = Some s ->
  lookup "endDate" dkvs = Some e ->
  exists r,
    run (Backtest.main (inl (PDict kvs))) = Process [r] 0 /\
    field "status" r = Some (PStr "success") /\
    field "strategy_name" r = Some (get_or mkvs "name" (PStr "unknown")) /\
    field2 "period" "start" r = Some s /\
    field2 "period" "end" r = Some e.
Proof.
  unfold get_or. intros Hs Hm Hd Hstart Hend.
  eexists. run_main.
  rewrite Hs, Hm, Hd, Hstart, Hend.
  repeat split.
Qed.

(** Case analysis on everything a run branches on. *)
Ltac split_match H :=
  repeat match type of H with
    | context [match ?x with _ => _ end] =>
        is_var x; destruct x; simpl in H; try discriminate H
    | context [match lookup ?k ?l with _ => _ end] =>
        destruct (lookup k l) eqn:?; simpl in H; try discriminate H
    end.

Lemma backtest_exit0_inv input r :
  run (Backtest.main input) = Process [r] 0 ->
  field "status" r = Some (PStr "success") /\
  field2 "performance" "winning_trades" r = Some (PInt 152) /\
  field2 "performance" "losing_trades" r = Some (PInt 93) /\
  field2 "performance" "total_trades" r = Some (PInt 245).
Proof.
  intro H. run_main in H. split_match H.
  all: injection H as Hr; subst r; repeat split.
Qed.

(** C4. On the example request the backtest runner writes one document with
    [strategy_name == "momentum"], [period.start == "2024-01-01"],
    [period.end == "2024-01-31"] and [status == "success"], and exits with 0. *)
Theorem C4_momentum_example :
  exists r,
    run (Backtest.main (inl momentum_request)) = Process [r] 0 /\
    field "strategy_name" r = Some (PStr "momentum") /\
    field2 "period" "start" r = Some (PStr "2024-01-01") /\
    field2 "period" "end" r = Some (PStr "2024-01-31") /\
    field "status" r = Some (PStr "success").
Proof.
  destruct (@backtest_run_dict
              [ ("dataConfig", PDict [ ("startDate", PStr "2024-01-01");
                                       ("endDate", PStr "2024-01-31") ]);
                ("strategy", PDict [ ("metadata", PDict [ ("name", PStr "momentum") ]) ]) ]
              [ ("metadata", PDict [ ("name", PStr "momentum") ]) ]
              [ ("name", PStr "momentum") ]
              [ ("startDate", PStr "2024-01-01"); ("endDate", PStr "2024-01-31") ]
              (PStr "2024-01-01") (PStr "2024-01-31"))
    as [r [Hrun [Hstatus [Hname [Hstart Hend]]]]]; try reflexivity.
  exists r. repeat split; assumption.
Qed.

(** C5. Whenever the backtest runner succeeds, the three trade counts of the
    [performance] object are integers with
    [winning_trades + losing_trades == total_trades]. *)
Theorem C5_trade_counts (input : stdin_json) (r : pyval) :
  succeeds_with (run (Backtest.main input)) r ->
  exists w l t,
    field2 "performance" "winning_trades" r = Some (PInt w) /\
    field2 "performance" "losing_trades" r = Some (PInt l) /\
    field2 "performance" "total_trades" r = Some (PInt t) /\
    w + l = t.
Proof.
  intros [Hrun _].
  destruct (backtest_exit0_inv _ Hrun) as [_ [Hw [Hl Ht]]].
  exists 152, 93, 245. repeat split; assumption.
Qed.

Lemma C5_trade_counts_witness :
  succeeds_with (run (Backtest.main (inl momentum_request))) momentum_result /\
  exists w l t,
    field2 "performance" "winning_trades" momentum_result = Some (PInt w) /\
    field2 "performance" "losing_trades" momentum_result = Some (PInt l) /\
    field2 "performance" "total_trades" momentum_result = Some (PInt t) /\
    w + l = t.
Proof.
  split.
  - split; reflexivity.
  - apply (@C5_trade_counts (inl momentum_request) momentum_result).
    split; reflexivity.
Defined.

(** C10, as stated, fails: with both dates in [dataConfig] and a strategy
    whose metadata is [null], so that the metadata holds no [name], the
    backtest runner does not answer ["unknown"]: [.get] on [None] raises
    [AttributeError], and the run ends with the error envelope and exit
    code 1.  The same happens for a strategy given as a string. *)
Lemma C10_counterexample :
  (has_key2 "dataConfig" "startDate" null_metadata_request = true /\
   has_key2 "dataConfig" "endDate" null_metadata_request = true /\
   strategy_name_missing null_metadata_request = true /\
   run (Backtest.main (inl null_metadata_request))
   = Process [ PDict [ ("status", PStr "error");
                       ("error", PStr "'NoneType' object has no attribute 'get'");
                       ("type", PStr "AttributeError") ] ] 1 /\
   ~ succeeds (run (Backtest.main (inl null_metadata_request)))) /\
  (has_key2 "dataConfig" "startDate" named_strategy_request = true /\
   has_key2 "dataConfig" "endDate" named_strategy_request = true /\
   strategy_name_missing named_strategy_request = true /\
   run (Backtest.main (inl named_strategy_request))
   = Process [ PDict [ ("status", PStr "error");
                       ("error", PStr "'str' object has no attribute 'get'");
                       ("type", PStr "AttributeError") ] ] 1 /\
   ~ succeeds (run (Backtest.main (inl named_strategy_request)))).
Proof.
  split; (split; [reflexivity | split; [reflexivity | split;
            [reflexivity | split; [reflexivity | ]]]]).
  - intros [r [Hrun _]]. discriminate Hrun.
  - intros [r [Hrun _]]. discriminate Hrun.
Qed.

(** C10, amended. When [dataConfig] holds [startDate] and [endDate], the
    backtest runner succeeds with [strategy_name == "unknown"] if the request
    has no [strategy], or its strategy is an object without [metadata], or
    the metadata is an object without [name]. *)
Theorem C10_strategy_name_unknown (kvs dkvs : list (string * pyval)) (s e : pyval) :
  lookup "dataConfig" kvs = Some (PDict dkvs) ->
  lookup "startDate" dkvs = Some s ->
  lookup "endDate" dkvs = Some e ->
  ( lookup "strategy" kvs = None \/
    (exists skvs,
        lookup "strategy" kvs = Some (PDict skvs) /\
        lookup "metadata" skvs = None) \/
    (exists skvs mkvs,
        lookup "strategy" kvs = Some (PDict skvs) /\
        lookup "metadata" skvs = Some (PDict mkvs) /\
        lookup "name" mkvs = None) ) ->
  exists r,
    succeeds_with (run (Backtest.main (inl (PDict kvs)))) r /\
    field "strategy_name" r = Some (PStr "unknown").
Proof.
  intros Hd Hs He Hcases.
  assert (exists skvs mkvs,
             get_or kvs "strategy" (PDict []) = PDict skvs /\
             get_or skvs "metadata" (PDict []) = PDict mkvs /\
             lookup "name" mkvs = None) as [skvs [mkvs [H1 [H2 H3]]]].
  { unfold get_or.
    destruct Hcases as [H | [[skvs [H H']] | [skvs [mkvs [H [H' H'']]]]]].
    - exists [], []. rewrite H. auto.
    - exists skvs, []. rewrite H, H'. auto.
    - exists skvs, mkvs. rewrite H, H'. auto. }
  destruct (@backtest_run_dict kvs skvs mkvs dkvs s e)
    as [r [Hrun [Hstatus [Hname _]]]]; auto.
  { unfold get_or. now rewrite Hd. }
  exists r. split; [split; assumption | ].
  unfold get_or in Hname. now rewrite H3 in Hname.
Qed.

Lemma C10_strategy_name_unknown_witness :
  exists r,
    succeeds_with
      (run (Backtest.main (inl (PDict
         [ ("dataConfig", PDict [ ("startDate", PStr "2024-01-01");
                                  ("endDate", PStr "2024-01-31") ]) ])))) r /\
    field "strategy_name" r = Some (PStr "unknown").
Proof.
  apply (@C10_strategy_name_unknown
           [ ("dataConfig", PDict [ ("startDate", PStr "2024-01-01");
                                    ("endDate", PStr "2024-01-31") ]) ]
           [ ("startDate", PStr "2024-01-01"); ("endDate", PStr "2024-01-31") ]
           (PStr "2024-01-01") (PStr "2024-01-31")).
  - reflexivity.
  - reflexivity.
  - reflexivity.
  - left. reflexivity.
Defined.

(** ** The other adapters on a JSON object

    [dict.get] never raises on a dictionary, so these three bodies reach their
    [print] on every JSON object. *)

Lemma data_run_dict kvs :
  run (Data.main (inl (PDict kvs)))
  = Process [ Data.fetch_data (get_or kvs "source" PNone)
                (get_or kvs "instrument" PNone) (get_or kvs "dataType" PNone)
                (get_or kvs "startDate" PNone) (get_or kvs "endDate" PNone)
                (get_or kvs "outputPath" PNone) ] 0.
Proof. reflexivity. Qed.

Lemma optimizer_run_dict kvs :
  run (Optimizer.main (inl (PDict kvs)))
  = Process [ Optimizer.optimize (get_or kvs "strategy" (PDict []))
                (get_or kvs "searchSpace" (PDict []))
                (get_or kvs "nTrials" (PInt 100)) (get_or kvs "studyName" PNone)
                (get_or kvs "sampler" (PStr "TPE"))
                (get_or kvs "pruner" (PStr "Hyperband"))
                (get_or kvs "backtestConfig" (PDict [])) ] 0.
Proof. reflexivity. Qed.

Lemma study_run_dict {R : Repr} kvs :
  run (Study.main (inl (PDict kvs)))
  = Process
      [ if eq_str (get_or kvs "action" (PStr "continue")) "continue"
        then Study.continue_study (get_or kvs "studyName" PNone)
               (get_or kvs "nTrials" (PInt 50))
        else PDict [ ("status", PStr "error");
                     ("error", PStr ("Unknown action: "
                                     ++ py_str (get_or kvs "action" (PStr "continue")))) ] ] 0.
Proof. reflexivity. Qed.

(** An exit with code 0 means the input was a JSON object. *)
Lemma exit0_is_dict {R : Repr} (a : adapter) input r :
  run (adapter_main a input) = Process [r] 0 ->
  exists kvs, input = inl (PDict kvs).
Proof.
  intro H.
  destruct input as [doc | [ty msg]].
  - destruct doc; try (destruct a; discriminate H). eauto.
  - destruct a; discriminate H.
Qed.

(** ** Success on a complete request *)

(** C2, as stated, fails: with all its required fields present the study
    adapter still answers [status == "error"] when the action is not
    ["continue"], and the backtest runner answers with the error envelope
    when the strategy is not an object. *)
Lemma C2_counterexample :
  (required_fields StudyContinuation stop_request = true /\
   (forall R : Repr,
       run (adapter_main StudyContinuation (inl stop_request))
       = Process [ PDict [ ("status", PStr "error");
                           ("error", PStr "Unknown action: stop") ] ] 0) /\
   (forall R : Repr,
       ~ succeeds (run (adapter_main StudyContinuation (inl stop_request))))) /\
  (required_fields BacktestRunner named_strategy_request = true /\
   (forall R : Repr,
       run (adapter_main BacktestRunner (inl named_strategy_request))
       = Process [ error_result "AttributeError"
                     "'str' object has no attribute 'get'" ] 1) /\
   (forall R : Repr,
       ~ succeeds (run (adapter_main BacktestRunner (inl named_strategy_request))))).
Proof.
  split; (split; [reflexivity | split]).
  - intro R. reflexivity.
  - intros R [r [Hrun Hstatus]].
    simpl in Hrun. injection Hrun as Hr. subst r. discriminate Hstatus.
  - intro R. reflexivity.
  - intros R [r [Hrun Hstatus]]. discriminate Hrun.
Qed.

(** C2, amended. For every adapter and every JSON object that holds all the
    required fields, with the strategy (and its metadata, when present) an
    object for the backtest runner, the action equal to ["continue"] for the
    study adapter, and no list or object in the fields the data fetcher and
    the optimizer echo, the process writes one document with
    [status == "success"] and exits with 0. *)
Theorem C2_success_on_required_fields {R : Repr} (a : adapter) (doc : pyval) :
  required_fields a doc = true ->
  fields_usable a doc = true ->
  succeeds (run (adapter_main a (inl doc))).
Proof.
  intros Hreq Huse.
  destruct doc as [ | | | | | | kvs];
    try (destruct a; discriminate Hreq).
  destruct a; simpl in Hreq, Huse |- *.
  - (* backtest runner *)
    unfold has_key, has_key2, field2, field in Hreq; simpl in Hreq.
    destruct (lookup "strategy" kvs) as [strategy | ] eqn:Hs; [ | discriminate].
    destruct strategy as [ | | | | | | skvs]; try discriminate.
    destruct (lookup "dataConfig" kvs) as [dc | ] eqn:Hd; [ | discriminate].
    destruct dc as [ | | | | | | dkvs]; try discriminate.
    simpl in Hreq.
    destruct (lookup "startDate" dkvs) as [s | ] eqn:Hstart; [ | discriminate].
    destruct (lookup "endDate" dkvs) as [e | ] eqn:Hend; [ | discriminate].
    assert (exists mkvs, get_or skvs "metadata" (PDict []) = PDict mkvs) as [mkvs Hm].
    { unfold get_or. destruct (lookup "metadata" skvs) as [m | ]; [ | eauto].
      destruct m; try discriminate; eauto. }
    destruct (@backtest_run_dict kvs skvs mkvs dkvs s e)
      as [r [Hrun [Hstatus _]]]; auto; try (unfold get_or; now rewrite ?Hs, ?Hd).
    exists r. split; assumption.
  - (* data fetcher *)
    eexists. split; [apply data_run_dict | reflexivity].
  - (* optimizer *)
    eexists. split; [apply optimizer_run_dict | reflexivity].
  - (* study continuation *)
    destruct (lookup "action" kvs) as [action | ] eqn:Ha; [ | discriminate].
    eexists. split; [apply study_run_dict | ].
    unfold get_or. rewrite Ha, Huse. reflexivity.
Qed.

Lemma C2_success_on_required_fields_witness :
  succeeds
    (run (adapter_main (R := example_repr) StudyContinuation
            (inl (PDict [ ("action", PStr "continue");
                          ("studyName", PStr "momentum_study") ])))).
Proof.
  apply (@C2_success_on_required_fields example_repr StudyContinuation
           (PDict [ ("action", PStr "continue");
                    ("studyName", PStr "momentum_study") ])).
  - reflexivity.
  - reflexivity.
Defined.

(** C3. The study adapter given [{"action": "stop"}]: the document on
    standard output has [status == "error"], no [type] field, and the process
    exits with code 0; indeed the study adapter exits with code 0 on every
    JSON object, whatever its action. *)
Theorem C3_unknown_action_exits_0 {R : Repr} :
  run (Study.main (inl (PDict [ ("action", PStr "stop") ])))
  = Process [ PDict [ ("status", PStr "error");
                      ("error", PStr "Unknown action: stop") ] ] 0 /\
  field "type" (PDict [ ("status", PStr "error");
                        ("error", PStr "Unknown action: stop") ]) = None /\
  (forall kvs, exit_code (run (Study.main (inl (PDict kvs)))) = 0).
Proof.
  split; [reflexivity | split; [reflexivity | ]].
  intro kvs. now rewrite study_run_dict.
Qed.

(** ** The optimizer's history and best value *)

Lemma optimizer_exit0_inv input r :
  run (Optimizer.main input) = Process [r] 0 ->
  exists kvs,
    input = inl (PDict kvs) /\
    r = Optimizer.optimize (get_or kvs "strategy" (PDict []))
          (get_or kvs "searchSpace" (PDict []))
          (get_or kvs "nTrials" (PInt 100)) (get_or kvs "studyName" PNone)
          (get_or kvs "sampler" (PStr "TPE"))
          (get_or kvs "pruner" (PStr "Hyperband"))
          (get_or kvs "backtestConfig" (PDict [])).
Proof.
  intro H.
  destruct (@exit0_is_dict example_repr OptimizerAdapter input r H) as [kvs ->].
  exists kvs. split; [reflexivity | ].
  rewrite optimizer_run_dict in H. now injection H as <-.
Qed.

(** C6, as stated, fails: on a request without [nTrials] the history has 4
    entries while [complete_trials] is 100 and [pruned_trials] is 0. *)
Lemma C6_counterexample :
  exists r,
    succeeds_with (run (Optimizer.main (inl plain_optimizer_request))) r /\
    field_length "optimization_history" r = Some 4%nat /\
    field2 "statistics" "complete_trials" r = Some (PInt 100) /\
    field2 "statistics" "pruned_trials" r = Some (PInt 0) /\
    Z.of_nat 4 <> 100 + 0.
Proof.
  eexists. split; [split; reflexivity | ].
  repeat split; try reflexivity. discriminate.
Qed.

(** C6, amended. Whenever the optimizer adapter succeeds, the history has
    exactly 4 entries, [complete_trials] is the [n_trials] of the result and
    [pruned_trials] is 0, so for an integer [n_trials] the length of the
    history is [complete_trials + pruned_trials] exactly when [n_trials] is 4;
    [best_value] is the maximum of the [value] entries of the history. *)
Theorem C6_history_and_best_value (input : stdin_json) (r : pyval) :
  succeeds_with (run (Optimizer.main input)) r ->
  field_length "optimization_history" r = Some 4%nat /\
  field2 "statistics" "complete_trials" r = field "n_trials" r /\
  field2 "statistics" "pruned_trials" r = Some (PInt 0) /\
  (forall n, field "n_trials" r = Some (PInt n) ->
     exists c p,
       field2 "statistics" "complete_trials" r = Some (PInt c) /\
       field2 "statistics" "pruned_trials" r = Some (PInt p) /\
       (Z.of_nat 4 = c + p <-> n = 4)) /\
  exists best values,
    field "best_value" r = Some (PFloat best) /\
    history_values r = Some values /\
    py_max values = Some best.
Proof.
  intros [Hrun _].
  destruct (optimizer_exit0_inv _ Hrun) as [kvs [_ ->]].
  split; [reflexivity | split; [reflexivity | split; [reflexivity | split]]].
  - intros n Hn. exists n, 0. simpl in Hn |- *.
    repeat split; try assumption; lia.
  - exists 2.15%float, [1.2; 1.5; 1.8; 2.15]%float.
    repeat split.
Qed.

Lemma C6_history_and_best_value_witness :
  succeeds_with (run (Optimizer.main (inl plain_optimizer_request)))
    plain_optimizer_result /\
  exists best values,
    field "best_value" plain_optimizer_result = Some (PFloat best) /\
    history_values plain_optimizer_result = Some values /\
    py_max values = Some best.
Proof.
  split.
  - split; reflexivity.
  - apply (@C6_history_and_best_value (inl plain_optimizer_request)
             plain_optimizer_result).
    split; reflexivity.
Defined.

(** ** Defaults of the optional fields *)

(** C7. Whenever the optimizer adapter writes its result for a JSON object,
    the result echoes the chosen [nTrials], [sampler] and [pruner] into
    [n_trials], [sampler] and [pruner]: the value of the field when the
    request has it, and 100, "TPE" and "Hyperband" when it does not.  With
    [nTrials], [studyName], [sampler] and [pruner] all absent the adapter
    does write that result.  The study adapter, continuing a study, adds the
    requested [nTrials], and 50 when the request has none. *)
Theorem C7_defaults {R : Repr} (kvs : list (string * pyval)) :
  (forall r,
      run (Optimizer.main (inl (PDict kvs))) = Process [r] 0 ->
      field "status" r = Some (PStr "success") /\
      field "n_trials" r = Some (get_or kvs "nTrials" (PInt 100)) /\
      field "sampler" r = Some (get_or kvs "sampler" (PStr "TPE")) /\
      field "pruner" r = Some (get_or kvs "pruner" (PStr "Hyperband")) /\
      (lookup "nTrials" kvs = None -> field "n_trials" r = Some (PInt 100)) /\
      (lookup "sampler" kvs = None -> field "sampler" r = Some (PStr "TPE")) /\
      (lookup "pruner" kvs = None -> field "pruner" r = Some (PStr "Hyperband"))) /\
  (lookup "nTrials" kvs = None ->
   lookup "studyName" kvs = None ->
   lookup "sampler" kvs = None ->
   lookup "pruner" kvs = None ->
   exists r,
      succeeds_with (run (Optimizer.main (inl (PDict kvs)))) r /\
      field "n_trials" r = Some (PInt 100) /\
      field "sampler" r = Some (PStr "TPE") /\
      field "pruner" r = Some (PStr "Hyperband")) /\
  (eq_str (get_or kvs "action" (PStr "continue")) "continue" = true ->
   exists r,
      succeeds_with (run (Study.main (inl (PDict kvs)))) r /\
      field "trials_added" r = Some (get_or kvs "nTrials" (PInt 50)) /\
      (lookup "nTrials" kvs = None -> field "trials_added" r = Some (PInt 50))).
Proof.
  split; [ | split].
  - intros r Hrun. rewrite optimizer_run_dict in Hrun. injection Hrun as <-.
    unfold get_or; simpl.
    repeat split; try reflexivity; intros ->; reflexivity.
  - intros Hn Hname Hs Hp. eexists.
    split; [split; [apply optimizer_run_dict | reflexivity] | ].
    unfold get_or. rewrite Hn, Hs, Hp. repeat split.
  - intro Ha. eexists.
    split; [split; [apply study_run_dict | ] | ]; rewrite Ha.
    + reflexivity.
    + unfold get_or; simpl. split; [reflexivity | intros ->; reflexivity].
Qed.

(** The optimizer given only its two required fields, and the study adapter
    given only a study name. *)
Lemma C7_defaults_witness :
  (exists r,
      succeeds_with (run (Optimizer.main (inl plain_optimizer_request))) r /\
      field "n_trials" r = Some (PInt 100) /\
      field "sampler" r = Some (PStr "TPE") /\
      field "pruner" r = Some (PStr "Hyperband")) /\
  (exists r,
      succeeds_with
        (run (Study.main (R := example_repr)
                (inl (PDict [ ("studyName", PStr "momentum_study") ])))) r /\
      field "trials_added" r = Some (PInt 50) /\
      field "message" r = Some (PStr "Added 50 trials to study 'momentum_study'")).
Proof.
  split.
  - apply (proj1 (proj2 (@C7_defaults example_repr
                           [ ("strategy", PDict []); ("searchSpace", PDict []) ])));
      reflexivity.
  - destruct (proj2 (proj2 (@C7_defaults example_repr
                              [ ("studyName", PStr "momentum_study") ]))
                eq_refl) as [r [Hrun [Hadded _]]].
    exists r. split; [exact Hrun | split; [exact Hadded | ]].
    destruct Hrun as [Hrun _]. injection Hrun as Hr. subst r. reflexivity.
Defined.

(** ** Missing fields *)

(** C8, as stated, fails: the data fetcher given [{}] (no [source], no
    [instrument]) and the optimizer given a request without [searchSpace]
    both succeed. *)
Lemma C8_counterexample :
  (required_fields DataFetcher (PDict []) = false /\
   exists r,
     succeeds_with (run (Data.main (inl (PDict [])))) r /\
     field "source" r = Some PNone /\
     field "instrument" r = Some PNone) /\
  (required_fields OptimizerAdapter (PDict [ ("strategy", PDict []) ]) = false /\
   succeeds (run (Optimizer.main (inl (PDict [ ("strategy", PDict []) ]))))).
Proof.
  split; split; try reflexivity.
  - eexists. split; [split; reflexivity | split; reflexivity].
  - eexists. split; reflexivity.
Qed.

(** C8, amended. No adapter validates its required fields.  On every JSON
    object whose echoed fields hold no list or object, the data fetcher and
    the optimizer succeed whichever fields are missing, a missing field
    being echoed as [null] or replaced by its default; the study adapter
    succeeds when [action] is missing.  The backtest runner fails on a
    missing field only where it subscripts [dataConfig]: with a usable
    strategy, a [dataConfig] without [startDate], or with [startDate] and
    without [endDate], gives the envelope
    [{"status": "error", "error": "'<key>'", "type": "KeyError"}] and exit
    code 1. *)
Theorem C8_missing_fields {R : Repr} (kvs : list (string * pyval)) :
  (fields_usable DataFetcher (PDict kvs) = true ->
   exists r,
      succeeds_with (run (Data.main (inl (PDict kvs)))) r /\
      field "source" r = Some (get_or kvs "source" PNone) /\
      field "instrument" r = Some (get_or kvs "instrument" PNone)) /\
  (fields_usable OptimizerAdapter (PDict kvs) = true ->
   succeeds (run (Optimizer.main (inl (PDict kvs))))) /\
  (lookup "action" kvs = None -> succeeds (run (Study.main (inl (PDict kvs))))) /\
  (forall skvs mkvs dkvs,
      get_or kvs "strategy" (PDict []) = PDict skvs ->
      get_or skvs "metadata" (PDict []) = PDict mkvs ->
      get_or kvs "dataConfig" (PDict []) = PDict dkvs ->
      (lookup "startDate" dkvs = None ->
       run (Backtest.main (inl (PDict kvs)))
       = Process [ PDict [ ("status", PStr "error");
                           ("error", PStr "'startDate'");
                           ("type", PStr "KeyError") ] ] 1) /\
      (forall s, lookup "startDate" dkvs = Some s ->
                 lookup "endDate" dkvs = None ->
       run (Backtest.main (inl (PDict kvs)))
       = Process [ PDict [ ("status", PStr "error");
                           ("error", PStr "'endDate'");
                           ("type", PStr "KeyError") ] ] 1)).
Proof.
  split; [ | split; [ | split]].
  - intros _. eexists. split; [split; [apply data_run_dict | reflexivity] | ].
    split; reflexivity.
  - intros _. eexists. split; [apply optimizer_run_dict | reflexivity].
  - intro Ha. eexists. split; [apply study_run_dict | ].
    unfold get_or. rewrite Ha. reflexivity.
  - unfold get_or. intros skvs mkvs dkvs Hs Hm Hd. split.
    + intro Hstart. run_main. rewrite Hs, Hm, Hd, Hstart. reflexivity.
    + intros s Hstart Hend. run_main. rewrite Hs, Hm, Hd, Hstart, Hend. reflexivity.
Qed.

(** The data fetcher and the backtest runner given [{}]. *)
Lemma C8_missing_fields_witness :
  (exists r,
      succeeds_with (run (Data.main (inl (PDict [])))) r /\
      field "source" r = Some PNone /\
      field "instrument" r = Some PNone) /\
  run (Backtest.main (inl (PDict [])))
  = Process [ PDict [ ("status", PStr "error");
                      ("error", PStr "'startDate'");
                      ("type", PStr "KeyError") ] ] 1.
Proof.
  split.
  - apply (proj1 (@C8_missing_fields example_repr [])). reflexivity.
  - apply (proj1 (proj2 (proj2 (proj2 (@C8_missing_fields example_repr [])))
                    [] [] [] eq_refl eq_refl eq_refl)).
    reflexivity.
Defined.

(** ** Fetching twice *)

Lemma data_exit0_inv input r :
  run (Data.main input) = Process [r] 0 ->
  field "status" r = Some (PStr "success") /\
  field "records_count" r = Some (PInt 1500000).
Proof.
  intro H.
  destruct (@exit0_is_dict example_repr DataFetcher input r H) as [kvs ->].
  rewrite data_run_dict in H. injection H as <-. split; reflexivity.
Qed.

(** C9. A run of the data fetcher has no effect but its line on standard
    output and its exit code, and that line is a function of the six
    arguments of [fetch_data]: two runs on requests with the same [source],
    [instrument], [dataType], [startDate], [endDate] and [outputPath], the
    second run as the first, write the same document, so the second
    [records_count] is the first; it is 1500000 for every request. *)
Theorem C9_refetch_same_count
    (kvs kvs' : list (string * pyval)) (first second : pyval) :
  get_or kvs "source" PNone = get_or kvs' "source" PNone ->
  get_or kvs "instrument" PNone = get_or kvs' "instrument" PNone ->
  get_or kvs "dataType" PNone = get_or kvs' "dataType" PNone ->
  get_or kvs "startDate" PNone = get_or kvs' "startDate" PNone ->
  get_or kvs "endDate" PNone = get_or kvs' "endDate" PNone ->
  get_or kvs "outputPath" PNone = get_or kvs' "outputPath" PNone ->
  run (Data.main (inl (PDict kvs))) = Process [first] 0 ->
  run (Data.main (inl (PDict kvs'))) = Process [second] 0 ->
  second = first /\
  field "records_count" second = field "records_count" first /\
  field "records_count" first = Some (PInt 1500000).
Proof.
  intros Hs Hi Ht Hstart Hend Hpath H1 H2.
  rewrite data_run_dict in H1, H2.
  injection H1 as H1. injection H2 as H2. subst first second.
  rewrite Hs, Hi, Ht, Hstart, Hend, Hpath.
  repeat split.
Qed.

(** The data fetcher run twice on one request, the second time with a field
    it does not read. *)
Lemma C9_refetch_same_count_witness :
  hd PNone (stdout (run (Data.main (inl (PDict
     [ ("retry", PBool true);
       ("source", PStr "binance"); ("instrument", PStr "BTCUSDT");
       ("dataType", PStr "trades"); ("startDate", PStr "2024-01-01");
       ("endDate", PStr "2024-01-31") ]))))) = trades_result /\
  field "records_count" trades_result = Some (PInt 1500000).
Proof.
  destruct (@C9_refetch_same_count
              [ ("source", PStr "binance"); ("instrument", PStr "BTCUSDT");
                ("dataType", PStr "trades"); ("startDate", PStr "2024-01-01");
                ("endDate", PStr "2024-01-31") ]
              [ ("retry", PBool true);
                ("source", PStr "binance"); ("instrument", PStr "BTCUSDT");
                ("dataType", PStr "trades"); ("startDate", PStr "2024-01-01");
                ("endDate", PStr "2024-01-31") ]
              trades_result
              (hd PNone (stdout (run (Data.main (inl (PDict
                 [ ("retry", PBool true);
                   ("source", PStr "binance"); ("instrument", PStr "BTCUSDT");
                   ("dataType", PStr "trades"); ("startDate", PStr "2024-01-01");
                   ("endDate", PStr "2024-01-31") ]))))))
              eq_refl eq_refl eq_refl eq_refl eq_refl eq_refl eq_refl eq_refl)
    as [Hsame [_ Hcount]].
  split; assumption.
Defined.

(** * Further properties of the adapters *)

(** ** One document per run *)

(** X1. Every run of every adapter, whatever is on standard input, writes
    exactly one line and exits with 0 or 1.  With exit code 1 the line is the
    error envelope [{"status": "error", "error": ..., "type": ...}].  With
    exit code 0 its status is ["success"], except for the study adapter,
    which may exit with 0 on a document of status ["error"] that has no
    [type]. *)
Theorem X1_one_document_per_run {R : Repr} (a : adapter) (input : stdin_json) :
  (exists r,
      run (adapter_main a input) = Process [r] 0 /\
      (field "status" r = Some (PStr "success") \/
       (a = StudyContinuation /\
        field "status" r = Some (PStr "error") /\
        field "type" r = None))) \/
  (exists ty msg,
      run (adapter_main a input)
      = Process [ PDict [ ("status", PStr "error"); ("error", PStr msg);
                          ("type", PStr ty) ] ] 1).
Proof.
  destruct (run_main_cases a input) as [[r Hr] | Hraised]; [left | now right].
  exists r. split; [exact Hr | ].
  destruct a; simpl in Hr.
  - left. now destruct (backtest_exit0_inv _ Hr).
  - left. now destruct (data_exit0_inv _ Hr).
  - left. destruct (optimizer_exit0_inv _ Hr) as [kvs [_ ->]]. reflexivity.
  - destruct (@exit0_is_dict R StudyContinuation input r Hr) as [kvs ->].
    rewrite study_run_dict in Hr. injection Hr as <-.
    destruct (eq_str (get_or kvs "action" (PStr "continue")) "continue").
    + left. reflexivity.
    + right. repeat split.
Qed.

(** ** Documents that are not objects *)

(** X2. A valid JSON document that is not an object (an array, a string, a
    number, a boolean, [null]) makes every adapter write the envelope of an
    [AttributeError] that names the type of the document, and exit with 1. *)
Theorem X2_non_object_rejected {R : Repr} (a : adapter) (doc : pyval) :
  is_dict doc = false ->
  run (adapter_main a (inl doc))
  = Process
      [ PDict [ ("status", PStr "error");
                ("error", PStr ("'" ++ type_name doc
                                    ++ "' object has no attribute 'get'"));
                ("type", PStr "AttributeError") ] ] 1.
Proof.
  intro H. destruct doc; try discriminate H; destruct a; reflexivity.
Qed.

(** The optimizer given [null]. *)
Lemma X2_non_object_rejected_witness :
  run (adapter_main (R := example_repr) OptimizerAdapter (inl PNone))
  = Process
      [ PDict [ ("status", PStr "error");
                ("error", PStr "'NoneType' object has no attribute 'get'");
                ("type", PStr "AttributeError") ] ] 1.
Proof.
  apply (@X2_non_object_rejected example_repr OptimizerAdapter PNone).
  reflexivity.
Defined.

(** ** When the backtest runner succeeds *)

Lemma backtest_exit_code doc :
  exit_code (run (Backtest.main (inl doc)))
  = if backtest_usable doc then 0 else 1.
Proof.
  unfold backtest_usable, get_or. run_main.
  repeat match goal with
    | |- context [match lookup ?k ?l with _ => _ end] =>
        destruct (lookup k l) eqn:?
    | |- context [match ?x with _ => _ end] => is_var x; destruct x
    end; reflexivity.
Qed.

(** X3. The backtest runner succeeds exactly on the usable requests, and
    exits with 1 on every other document: nothing else about the request is
    checked, neither the type of the two dates nor their order. *)
Theorem X3_backtest_success_iff (doc : pyval) :
  exit_code (run (Backtest.main (inl doc)))
  = (if backtest_usable doc then 0 else 1) /\
  (succeeds (run (Backtest.main (inl doc))) <-> backtest_usable doc = true).
Proof.
  split; [apply backtest_exit_code | ].
  pose proof (backtest_exit_code doc) as Hcode.
  split.
  - intros [r [Hrun _]]. rewrite Hrun in Hcode. simpl in Hcode.
    destruct (backtest_usable doc); [reflexivity | discriminate].
  - intro Hu. rewrite Hu in Hcode.
    destruct (@run_main_cases example_repr BacktestRunner (inl doc))
      as [[r Hr] | [ty [msg He]]]; simpl in *.
    + exists r. split; [exact Hr | ]. now destruct (backtest_exit0_inv _ Hr).
    + rewrite He in Hcode. discriminate.
Qed.

(** A request whose end date precedes its start date and is a number. *)
Lemma X3_backtest_success_iff_witness :
  succeeds
    (run (Backtest.main (inl (PDict
       [ ("dataConfig", PDict [ ("startDate", PStr "2024-12-31");
                                ("endDate", PInt 0) ]) ])))).
Proof.
  apply (proj2 (proj2 (X3_backtest_success_iff (PDict
       [ ("dataConfig", PDict [ ("startDate", PStr "2024-12-31");
                                ("endDate", PInt 0) ]) ])))).
  reflexivity.
Defined.

(** X4. The backtest runner looks at the strategy before the dates: a
    strategy that is not an object, or whose metadata is not an object, gives
    the envelope of an [AttributeError] naming the offending type, whatever
    [dataConfig] holds. *)
Theorem X4_backtest_strategy_checked_first (kvs : list (string * pyval)) :
  (forall strategy,
      lookup "strategy" kvs = Some strategy ->
      is_dict strategy = false ->
      run (Backtest.main (inl (PDict kvs)))
      = Process
          [ PDict [ ("status", PStr "error");
                    ("error", PStr ("'" ++ type_name strategy
                                        ++ "' object has no attribute 'get'"));
                    ("type", PStr "AttributeError") ] ] 1) /\
  (forall skvs metadata,
      lookup "strategy" kvs = Some (PDict skvs) ->
      lookup "metadata" skvs = Some metadata ->
      is_dict metadata = false ->
      run (Backtest.main (inl (PDict kvs)))
      = Process
          [ PDict [ ("status", PStr "error");
                    ("error", PStr ("'" ++ type_name metadata
                                        ++ "' object has no attribute 'get'"));
                    ("type", PStr "AttributeError") ] ] 1).
Proof.
  split.
  - intros strategy Hs Hd. run_main. rewrite Hs.
    destruct strategy; try discriminate Hd; reflexivity.
  - intros skvs metadata Hs Hm Hd. run_main. rewrite Hs, Hm.
    destruct metadata; try discriminate Hd; reflexivity.
Qed.

(** A strategy given by name, with no [dataConfig] at all. *)
Lemma X4_backtest_strategy_checked_first_witness :
  run (Backtest.main (inl (PDict [ ("strategy", PStr "momentum") ])))
  = Process
      [ PDict [ ("status", PStr "error");
                ("error", PStr "'str' object has no attribute 'get'");
                ("type", PStr "AttributeError") ] ] 1.
Proof.
  apply (proj1 (X4_backtest_strategy_checked_first
                  [ ("strategy", PStr "momentum") ])
           (PStr "momentum") eq_refl eq_refl).
Defined.

(** X5. With a usable strategy, a [dataConfig] that is present and is not an
    object makes the backtest runner write an envelope whose [type] is
    ["TypeError"] and exit with 1. *)
Theorem X5_backtest_data_config_not_object
    (kvs skvs mkvs : list (string * pyval)) (data_config : pyval) :
  get_or kvs "strategy" (PDict []) = PDict skvs ->
  get_or skvs "metadata" (PDict []) = PDict mkvs ->
  lookup "dataConfig" kvs = Some data_config ->
  is_dict data_config = false ->
  exists msg,
    run (Backtest.main (inl (PDict kvs)))
    = Process [ PDict [ ("status", PStr "error"); ("error", PStr msg);
                        ("type", PStr "TypeError") ] ] 1.
Proof.
  unfold get_or. intros Hs Hm Hd Hnot. run_main. rewrite Hs, Hm, Hd.
  destruct data_config; try discriminate Hnot; eexists; reflexivity.
Qed.

(** [dataConfig] given as [null]. *)
Lemma X5_backtest_data_config_not_object_witness :
  exists msg,
    run (Backtest.main (inl (PDict [ ("dataConfig", PNone) ])))
    = Process [ PDict [ ("status", PStr "error"); ("error", PStr msg);
                        ("type", PStr "TypeError") ] ] 1.
Proof.
  apply (@X5_backtest_data_config_not_object
           [ ("dataConfig", PNone) ] [] [] PNone);
    reflexivity.
Defined.

(** ** What the backtest report takes from the request *)

(** X6. In every report of the backtest runner the two dates of [period] are
    the [startDate] and [endDate] of the request's [dataConfig], as they were
    given, and [trade_log_summary] repeats them as [first_trade] and
    [last_trade]. *)
Theorem X6_backtest_dates_echoed (input : stdin_json) (r : pyval) :
  run (Backtest.main input) = Process [r] 0 ->
  exists kvs dkvs s e,
    input = inl (PDict kvs) /\
    get_or kvs "dataConfig" (PDict []) = PDict dkvs /\
    lookup "startDate" dkvs = Some s /\
    lookup "endDate" dkvs = Some e /\
    field2 "period" "start" r = Some s /\
    field2 "period" "end" r = Some e /\
    field2 "trade_log_summary" "first_trade" r = Some s /\
    field2 "trade_log_summary" "last_trade" r = Some e.
Proof.
  intro H. run_main in H. split_match H.
  all: injection H as Hr; subst r; unfold get_or.
  all: do 4 eexists; split; [reflexivity | ].
  all: match goal with
       | Hd : lookup "dataConfig" _ = Some (PDict _) |- _ => rewrite Hd
       end.
  all: split; [reflexivity | ].
  all: split; [eassumption | split; [eassumption | ]].
  all: repeat split.
Qed.

Lemma X6_backtest_dates_echoed_witness :
  exists kvs dkvs s e,
    inl momentum_request = @inl pyval (string * string) (PDict kvs) /\
    get_or kvs "dataConfig" (PDict []) = PDict dkvs /\
    lookup "startDate" dkvs = Some s /\
    lookup "endDate" dkvs = Some e /\
    field2 "period" "start" momentum_result = Some s /\
    field2 "period" "end" momentum_result = Some e /\
    field2 "trade_log_summary" "first_trade" momentum_result = Some s /\
    field2 "trade_log_summary" "last_trade" momentum_result = Some e.
Proof.
  apply (@X6_backtest_dates_echoed (inl momentum_request) momentum_result).
  reflexivity.
Defined.

(** X7. The backtest runner reads [strategy] and [dataConfig] and nothing
    else: two requests that agree on these two fields (each taken as [{}]
    when missing) give the same output and the same exit code, whatever
    [config] or any other field holds. *)
Theorem X7_backtest_reads_two_fields (kvs kvs' : list (string * pyval)) :
  get_or kvs "strategy" (PDict []) = get_or kvs' "strategy" (PDict []) ->
  get_or kvs "dataConfig" (PDict []) = get_or kvs' "dataConfig" (PDict []) ->
  run (Backtest.main (inl (PDict kvs))) = run (Backtest.main (inl (PDict kvs'))).
Proof.
  unfold get_or. intros Hs Hd. run_main. rewrite Hs, Hd. reflexivity.
Qed.

(** The example request with an engine configuration added. *)
Lemma X7_backtest_reads_two_fields_witness :
  run (Backtest.main (inl (PDict
         [ ("config", PDict [ ("venue", PStr "SIM"); ("fee", PFloat 0.5) ]);
           ("strategy", PDict [ ("metadata", PDict [ ("name", PStr "momentum") ]) ]);
           ("dataConfig", PDict [ ("startDate", PStr "2024-01-01");
                                  ("endDate", PStr "2024-01-31") ]) ])))
  = run (Backtest.main (inl momentum_request)).
Proof.
  apply X7_backtest_reads_two_fields; reflexivity.
Defined.

(** ** What the optimizer takes from the request *)

(** X8. The optimizer's output depends on [nTrials], [studyName], [sampler]
    and [pruner] only: two requests that agree on these four (with their
    defaults when missing) give the same output, whatever [strategy],
    [searchSpace] and [backtestConfig] hold. *)
Theorem X8_optimizer_reads_four_fields (kvs kvs' : list (string * pyval)) :
  get_or kvs "nTrials" (PInt 100) = get_or kvs' "nTrials" (PInt 100) ->
  get_or kvs "studyName" PNone = get_or kvs' "studyName" PNone ->
  get_or kvs "sampler" (PStr "TPE") = get_or kvs' "sampler" (PStr "TPE") ->
  get_or kvs "pruner" (PStr "Hyperband") = get_or kvs' "pruner" (PStr "Hyperband") ->
  run (Optimizer.main (inl (PDict kvs))) = run (Optimizer.main (inl (PDict kvs'))).
Proof.
  intros Hn Hname Hs Hp. rewrite !optimizer_run_dict.
  unfold Optimizer.optimize. rewrite Hn, Hname, Hs, Hp. reflexivity.
Qed.

(** A search space and a strategy change nothing. *)
Lemma X8_optimizer_reads_four_fields_witness :
  run (Optimizer.main (inl (PDict
         [ ("strategy", PDict [ ("metadata", PDict [ ("name", PStr "momentum") ]) ]);
           ("searchSpace", PDict
              [ ("windowSize", PDict [ ("type", PStr "int"); ("low", PInt 5);
                                       ("high", PInt 50) ]) ]) ])))
  = run (Optimizer.main (inl plain_optimizer_request)).
Proof.
  apply X8_optimizer_reads_four_fields; reflexivity.
Defined.

(** X9. In every result of the optimizer the trial numbers of the history
    are the positions [0, 1, ...] of its entries, and [best_trial_number] is
    the position of an entry whose [value] is the [best_value] of the
    result. *)
Theorem X9_best_trial_in_history (input : stdin_json) (r : pyval) :
  run (Optimizer.main input) = Process [r] 0 ->
  exists entries best entry,
    field "optimization_history" r = Some (PList entries) /\
    entry_trials entries = trial_numbers (List.length entries) /\
    field2 "statistics" "best_trial_number" r = Some (PInt (Z.of_nat best)) /\
    nth_error entries best = Some entry /\
    field "trial" entry = Some (PInt (Z.of_nat best)) /\
    field "value" entry = field "best_value" r.
Proof.
  intro Hrun.
  destruct (optimizer_exit0_inv _ Hrun) as [kvs [_ ->]].
  eexists. exists 3%nat. eexists.
  split; [reflexivity | ].
  split; [reflexivity | ].
  split; [reflexivity | ].
  split; [reflexivity | ].
  split; reflexivity.
Qed.

Lemma X9_best_trial_in_history_witness :
  exists entries best entry,
    field "optimization_history" plain_optimizer_result = Some (PList entries) /\
    entry_trials entries = trial_numbers (List.length entries) /\
    field2 "statistics" "best_trial_number" plain_optimizer_result
      = Some (PInt (Z.of_nat best)) /\
    nth_error entries best = Some entry /\
    field "trial" entry = Some (PInt (Z.of_nat best)) /\
    field "value" entry = field "best_value" plain_optimizer_result.
Proof.
  apply (@X9_best_trial_in_history (inl plain_optimizer_request)
           plain_optimizer_result).
  reflexivity.
Defined.

(** ** Names that are missing or empty *)

Lemma truthy_py_or (v default : pyval) :
  truthy default = true -> truthy (py_or v default) = true.
Proof.
  intro Hd. unfold py_or. destruct (truthy v) eqn:Hv; assumption.
Qed.

(** X10. In every result the data fetcher writes, [output_path] is never
    [null], empty or zero: it is the request's [outputPath] when that is
    truthy, and ["memory"] when it is missing, [null], [""], [0], [false],
    [[]] or [{}].  The same holds of [study_name] in every result the
    optimizer writes, with [studyName] and ["unnamed_study"]. *)
Theorem X10_falsy_names_replaced (kvs : list (string * pyval)) (r : pyval) :
  (run (Data.main (inl (PDict kvs))) = Process [r] 0 ->
   exists p,
      field "output_path" r = Some p /\
      truthy p = true /\
      p = (if truthy (get_or kvs "outputPath" PNone)
           then get_or kvs "outputPath" PNone else PStr "memory")) /\
  (run (Optimizer.main (inl (PDict kvs))) = Process [r] 0 ->
   exists n,
      field "study_name" r = Some n /\
      truthy n = true /\
      n = (if truthy (get_or kvs "studyName" PNone)
           then get_or kvs "studyName" PNone else PStr "unnamed_study")).
Proof.
  split; intro Hrun.
  - rewrite data_run_dict in Hrun. injection Hrun as <-.
    eexists. split; [reflexivity | ].
    split; [now apply truthy_py_or | reflexivity].
  - rewrite optimizer_run_dict in Hrun. injection Hrun as <-.
    eexists. split; [reflexivity | ].
    split; [now apply truthy_py_or | reflexivity].
Qed.

(** The data fetcher given an empty output path. *)
Lemma X10_falsy_names_replaced_witness :
  exists p,
    field "output_path"
      (hd PNone (stdout (run (Data.main (inl (PDict [ ("outputPath", PStr "") ]))))))
    = Some p /\
    truthy p = true /\
    p = PStr "memory".
Proof.
  apply (proj1 (X10_falsy_names_replaced [ ("outputPath", PStr "") ]
                  (hd PNone (stdout (run (Data.main
                     (inl (PDict [ ("outputPath", PStr "") ])))))))).
  reflexivity.
Defined.

(** ** The action of the study adapter *)

Lemma eq_str_true_iff (v : pyval) (s : string) :
  eq_str v s = true <-> v = PStr s.
Proof.
  destruct v; simpl; try (split; [discriminate | discriminate]).
  rewrite String.eqb_eq. split; [now intros -> | now intros [= ->]].
Qed.

(** X11. On a JSON object the study adapter succeeds exactly when the
    request has no [action] or its action is the string ["continue"].  Any
    other action, a string or not, gives the document
    [{"status": "error", "error": "Unknown action: <action>"}] and exit
    code 0. *)
Theorem X11_study_continues_only {R : Repr} (kvs : list (string * pyval)) :
  (succeeds (run (Study.main (inl (PDict kvs)))) <->
   (lookup "action" kvs = None \/ lookup "action" kvs = Some (PStr "continue"))) /\
  (forall action,
      lookup "action" kvs = Some action ->
      eq_str action "continue" = false ->
      run (Study.main (inl (PDict kvs)))
      = Process [ PDict [ ("status", PStr "error");
                          ("error", PStr ("Unknown action: " ++ py_str action)) ] ] 0).
Proof.
  split.
  - rewrite study_run_dict. unfold get_or.
    destruct (lookup "action" kvs) as [action | ] eqn:Ha.
    + destruct (eq_str action "continue") eqn:He.
      * apply eq_str_true_iff in He. subst action.
        split; [now right | ]. intros _. eexists. split; reflexivity.
      * split.
        -- intros [r [Hrun Hstatus]]. injection Hrun as <-. discriminate Hstatus.
        -- intros [Hnone | Hsome]; [discriminate | ].
           injection Hsome as ->. discriminate He.
    + split; [now left | ]. intros _. eexists. split; reflexivity.
  - intros action Ha He. rewrite study_run_dict. unfold get_or.
    rewrite Ha, He. reflexivity.
Qed.

(** The action given as [null]. *)
Lemma X11_study_continues_only_witness :
  run (Study.main (R := example_repr) (inl (PDict [ ("action", PNone) ])))
  = Process [ PDict [ ("status", PStr "error");
                      ("error", PStr "Unknown action: None") ] ] 0.
Proof.
  apply (proj2 (@X11_study_continues_only example_repr [ ("action", PNone) ])
           PNone eq_refl eq_refl).
Defined.

(** ** What the data fetcher echoes *)

(** X12. Every result the data fetcher writes for a JSON object carries
    the request's own [source], [instrument], [dataType] (as [data_type]),
    [startDate] and [endDate] (as [period]), [null] standing for a missing
    one, and the timestamps of [summary] are the two ends of [period]. *)
Theorem X12_data_request_echoed (kvs : list (string * pyval)) (r : pyval) :
  run (Data.main (inl (PDict kvs))) = Process [r] 0 ->
  field "source" r = Some (get_or kvs "source" PNone) /\
  field "instrument" r = Some (get_or kvs "instrument" PNone) /\
  field "data_type" r = Some (get_or kvs "dataType" PNone) /\
  field2 "period" "start" r = Some (get_or kvs "startDate" PNone) /\
  field2 "period" "end" r = Some (get_or kvs "endDate" PNone) /\
  field2 "summary" "first_timestamp" r = field2 "period" "start" r /\
  field2 "summary" "last_timestamp" r = field2 "period" "end" r.
Proof.
  intro Hrun. rewrite data_run_dict in Hrun. injection Hrun as <-.
  repeat split.
Qed.

Lemma X12_data_request_echoed_witness :
  field "source" trades_result = Some (PStr "binance") /\
  field "instrument" trades_result = Some (PStr "BTCUSDT") /\
  field "data_type" trades_result = Some (PStr "trades") /\
  field2 "period" "start" trades_result = Some (PStr "2024-01-01") /\
  field2 "period" "end" trades_result = Some (PStr "2024-01-31") /\
  field2 "summary" "first_timestamp" trades_result
    = field2 "period" "start" trades_result /\
  field2 "summary" "last_timestamp" trades_result
    = field2 "period" "end" trades_result.
Proof.
  apply (@X12_data_request_echoed
           [ ("source", PStr "binance"); ("instrument", PStr "BTCUSDT");
             ("dataType", PStr "trades"); ("startDate", PStr "2024-01-01");
             ("endDate", PStr "2024-01-31") ]
           trades_result).
  reflexivity.
Defined.
